(** * nc150: the test generator [generate_tests.py] and the solution
      [src/arrays/has_duplicate.py], as a shallow embedding.

    Python values are modelled as follows: [str] as [string], [int] as [Z],
    a [set] of integers as [gset Z], a [list] as [list], the [dict] of a
    test case's named arguments as an association list (insertion order is
    the iteration order), the table [test_specifications] as a
    [gmap string spec].  The file system is a finite map from path to file
    text; printing, loading a module and the file operations are recorded
    in a trace. *)

From Stdlib Require Import Ascii DecimalString DecimalNat.
From stdpp Require Import gmap strings list fin_maps.

Set Warnings "-register-all".

(** ** The solution under test: [src/arrays/has_duplicate.py] *)

Module HasDuplicate.

(** The [for i in nums] loop, with the set [s] as loop state; the
    [return True] inside the loop ends the iteration. *)
Fixpoint loop (s : gset Z) (nums : list Z) : bool :=
  match nums with
  | [] => false
  | i :: rest =>
      if bool_decide (i ∈ s) then true
      else loop ({[i]} ∪ s) rest
  end.

Definition has_duplicate (nums : list Z) : bool := loop ∅ nums.

(** The property in words: two different positions hold the same value. *)
Definition repeats (nums : list Z) : Prop :=
  ∃ (i j : nat) (x : Z), i < j ∧ nums !! i = Some x ∧ nums !! j = Some x.

End HasDuplicate.


(** ** Python's [str] methods and literals *)

Module PyStr.

Definition LF : string := String "010"%char EmptyString.
Definition backslash : ascii := "092"%char.
Definition squote : ascii := "039"%char.
Definition dquote : ascii := "034"%char.

(** [s.startswith(p)] and [s.endswith(p)] *)
Definition startswith (s p : string) : bool := String.prefix p s.
Definition endswith (s p : string) : bool :=
  String.prefix (String.rev p) (String.rev s).

(** [s.replace(old, new)]: the occurrences of [old] are found from left
    to right and do not overlap; [skip] counts the characters of a
    matched occurrence that are still to be passed over. *)
Fixpoint replace_from (old new : string) (skip : nat) (s : string) : string :=
  match s with
  | EmptyString => EmptyString
  | String c rest =>
      match skip with
      | S k => replace_from old new k rest
      | O =>
          if startswith s old
          then new +:+ replace_from old new (String.length old - 1) rest
          else String c (replace_from old new 0 rest)
      end
  end.

(** With an empty [old], Python puts [new] before every character and at
    the end. *)
Fixpoint interleave (new s : string) : string :=
  match s with
  | EmptyString => new
  | String c rest => new +:+ String c (interleave new rest)
  end.

Definition replace (s old new : string) : string :=
  match old with
  | EmptyString => interleave new s
  | String _ _ => replace_from old new 0 s
  end.

(** [s.split(sep)] for a one-character separator. *)
Fixpoint split (s : string) (sep : ascii) : list string :=
  match s with
  | EmptyString => [EmptyString]
  | String c rest =>
      if decide (c = sep) then EmptyString :: split rest sep
      else match split rest sep with
           | h :: t => String c h :: t
           | [] => [String c EmptyString]
           end
  end.

(** [sep.join(l)] *)
Definition join (sep : string) (l : list string) : string := String.concat sep l.

(** [str(i)] for a position and for an integer. *)
Definition str_nat (i : nat) : string := NilZero.string_of_uint (Nat.to_uint i).
Definition str_int (z : Z) : string := NilZero.string_of_int (Z.to_int z).

Definition hex_digit (n : N) : ascii :=
  if (n <? 10)%N then ascii_of_N (48 + n) else ascii_of_N (87 + n).

Definition contains_char (c : ascii) (s : string) : bool :=
  bool_decide (c ∈ String.list_ascii_of_string s).

(** The values a test case may hold, and [repr] on them.  A [string]
    stands for the UTF-8 bytes of a Python [str] whose characters beyond
    ASCII are printable: [repr] leaves those bytes as they are.  An
    integer stays within the number of digits that the interpreter
    converts to text ([sys.get_int_max_str_digits()]). *)
Inductive value :=
  | VNone
  | VBool (b : bool)
  | VInt (z : Z)
  | VStr (s : string)
  | VList (l : list value)
  | VTuple (l : list value).

Definition repr_char (quote c : ascii) : string :=
  let n := N_of_ascii c in
  let esc (d : ascii) := String backslash (String d EmptyString) in
  if decide (c = quote) then esc c
  else if decide (c = backslash) then esc backslash
  else if decide (c = "009"%char) then esc "t"%char
  else if decide (c = "010"%char) then esc "n"%char
  else if decide (c = "013"%char) then esc "r"%char
  else if ((n <? 32) || (n =? 127))%N
       then String backslash
              (String "x" (String (hex_digit (n / 16))
                 (String (hex_digit (n mod 16)) EmptyString)))
  else String c EmptyString.

Fixpoint repr_chars (quote : ascii) (s : string) : string :=
  match s with
  | EmptyString => EmptyString
  | String c rest => repr_char quote c +:+ repr_chars quote rest
  end.

Definition repr_str (s : string) : string :=
  let quote := if contains_char squote s && negb (contains_char dquote s)
               then dquote else squote in
  String quote (repr_chars quote s +:+ String quote EmptyString).

Fixpoint repr (v : value) : string :=
  match v with
  | VNone => "None"
  | VBool b => if b then "True" else "False"
  | VInt z => str_int z
  | VStr s => repr_str s
  | VList l => "[" +:+ join ", " (map repr l) +:+ "]"
  | VTuple l =>
      match l with
      | [x] => "(" +:+ repr x +:+ ",)"
      | _ => "(" +:+ join ", " (map repr l) +:+ ")"
      end
  end.

End PyStr.

(** ** [os.path] on POSIX ([os.sep] is the slash) *)

Module PosixPath.
Import PyStr.

Definition sep : string := "/".

(** [p[:i], p[i:]] for [i = p.rfind('/') + 1] *)
Fixpoint rsplit_sep (p : string) : string * string :=
  match p with
  | EmptyString => (EmptyString, EmptyString)
  | String c rest =>
      let '(head, tail) := rsplit_sep rest in
      match head with
      | String _ _ => (String c head, tail)
      | EmptyString =>
          if decide (c = "/"%char) then (sep, tail)
          else (EmptyString, String c tail)
      end
  end.

(** [s.rstrip('/')] *)
Fixpoint rstrip_sep (s : string) : string :=
  match s with
  | EmptyString => EmptyString
  | String c rest =>
      match rstrip_sep rest with
      | EmptyString => if decide (c = "/"%char) then EmptyString
                       else String c EmptyString
      | r => String c r
      end
  end.

Definition basename (p : string) : string := snd (rsplit_sep p).

(** The head keeps its slashes only when it consists of nothing else. *)
Definition dirname (p : string) : string :=
  let head := fst (rsplit_sep p) in
  match rstrip_sep head with
  | EmptyString => head
  | stripped => stripped
  end.

(** [os.path.join(a, b)] *)
Definition join (a b : string) : string :=
  if startswith b sep then b
  else if bool_decide (a = EmptyString) || endswith a sep then a +:+ b
  else a +:+ sep +:+ b.

(** The loop of [normpath] over the components. *)
Definition norm_step (rooted : bool) (new_comps : list string) (comp : string)
  : list string :=
  if bool_decide (comp = EmptyString) || bool_decide (comp = ".") then new_comps
  else if negb (bool_decide (comp = ".."))
          || (negb rooted && bool_decide (new_comps = []))
          || bool_decide (last new_comps = Some "..")
       then (new_comps ++ [comp])%list
  else removelast new_comps.

Definition norm_comps (path : string) : list string :=
  foldl (norm_step (startswith path sep)) [] (split path "/").

(** [os.path.normpath]; two leading slashes are kept, three or more
    become one. *)
Definition normpath (path : string) : string :=
  let initial_slashes :=
    if startswith path "//" && negb (startswith path "///") then "//"
    else if startswith path sep then sep else EmptyString in
  match initial_slashes +:+ PyStr.join sep (norm_comps path) with
  | EmptyString => "."
  | p => p
  end.

Fixpoint common_prefix (l1 l2 : list string) : list string :=
  match l1, l2 with
  | x :: l1', y :: l2' => if decide (x = y) then x :: common_prefix l1' l2' else []
  | _, _ => []
  end.

(** [os.path.relpath(path, start)].  Both arguments are made absolute
    with the same working directory, whose components are common to
    both and are left out here. *)
Definition relpath (path start : string) : string :=
  let start_list := norm_comps start in
  let path_list := norm_comps path in
  let i := length (common_prefix start_list path_list) in
  match (replicate (length start_list - i) ".." ++ drop i path_list)%list with
  | [] => "."
  | rel_list => PyStr.join sep rel_list
  end.

End PosixPath.

(** ** The world of a run: files, console, module loader *)

Module Os.
Import PyStr.

(** A raised exception: either an instance of [Exception], or one of the
    classes that derive from [BaseException] only ([SystemExit],
    [KeyboardInterrupt], [GeneratorExit]).  [text] is what [str(e)]
    returns; [ExceptionNoStr] is an instance of [Exception] whose own
    [__str__] raises [raised] instead of returning. *)
Inductive exn :=
  | ExceptionInstance (cls text : string)
  | BaseExceptionOnly (cls text : string)
  | ExceptionNoStr (cls : string) (raised : exn).

Definition is_Exception (e : exn) : bool :=
  match e with
  | ExceptionInstance _ _ | ExceptionNoStr _ _ => true
  | BaseExceptionOnly _ _ => false
  end.

(** What a run does, in order. *)
Inductive event :=
  | EvPrint (line : string)
  | EvExec (name path : string)
  | EvMakeDirs (path : string)
  | EvWrite (path text : string)
  | EvRemove (path : string).

Global Instance event_eq_dec : EqDecision event.
Proof. solve_decision. Defined.

(** The regular files, keyed by normal path relative to the working
    directory, with their text.  A directory exists when a file lies
    below it.  There are no symbolic links, and a path names the file
    stored under its [normpath]. *)
Record world := World {
  files : gmap string string;
  trace : list event
}.

Inductive result (A : Type) :=
  | Ret (a : A)
  | Raise (e : exn).
Global Arguments Ret {A} a.
Global Arguments Raise {A} e.

(** Statements: from a world to a result and the world left behind. *)
Definition M (A : Type) : Type := world → result A * world.

Global Instance M_ret : MRet M := λ A a w, (Ret a, w).
Global Instance M_bind : MBind M := λ A B f m w,
  match m w with
  | (Ret a, w') => f a w'
  | (Raise e, w') => (Raise e, w')
  end.


(** [str(e)], as the f-string [{e}] calls it: it runs the exception's own
    [__str__], which may raise. *)
Definition exn_str (e : exn) : result string :=
  match e with
  | ExceptionInstance _ text | BaseExceptionOnly _ text => Ret text
  | ExceptionNoStr _ raised => Raise raised
  end.

Definition str_of_exn (e : exn) : M string := λ w, (exn_str e, w).

Definition emit (ev : event) : M unit :=
  λ w, (Ret tt, World (files w) (trace w ++ [ev])).
Definition print (line : string) : M unit := emit (EvPrint line).
Definition when (b : bool) (m : M unit) : M unit := if b then m else mret tt.

(** [try: body  except Exception as e: handler e] *)
Definition try_except_Exception {A} (body : M A) (handler : exn → M A) : M A :=
  λ w, match body w with
       | (Raise e, w') => if is_Exception e then handler e w' else (Raise e, w')
       | r => r
       end.

(** [for x in xs: body x] *)
Fixpoint for_each {A} (xs : list A) (body : A → M unit) : M unit :=
  match xs with
  | [] => mret tt
  | x :: rest => body x ;; for_each rest body
  end.

(** The iterations that the loop [for x in xs: body x] reaches from the
    world [w], each with the world it starts in: the loop ends at the
    first iteration that raises. *)
Fixpoint iterations {A} (xs : list A) (body : A → M unit) (w : world)
    : list (A * world) :=
  match xs with
  | [] => []
  | x :: rest =>
      (x, w) :: match body x w with
                | (Ret _, w') => iterations rest body w'
                | (Raise _, _) => []
                end
  end.

Definition is_file (fs : gmap string string) (path : string) : bool :=
  bool_decide (is_Some (fs !! PosixPath.normpath path)).

(** [path], a normal path, lies below the directory [dir]. *)
Definition below (dir path : string) : bool :=
  if bool_decide (dir = ".") then negb (startswith path PosixPath.sep)
  else if endswith dir PosixPath.sep then startswith path dir
  else startswith path (dir +:+ PosixPath.sep).

Definition is_dir (fs : gmap string string) (path : string) : bool :=
  let dir := PosixPath.normpath path in
  bool_decide (dir = ".")
  || existsb (λ kv, below dir (fst kv)) (map_to_list fs).

(** [os.path.exists] *)
Definition os_path_exists (path : string) : M bool :=
  λ w, (Ret (is_file (files w) path || is_dir (files w) path), w).

(** [os.walk(root)], flattened: one [(dirpath, filename)] for every file
    below [root], which is what the two nested loops of the enumerations
    visit.  The empty path names no directory, and the walk of what is no
    directory yields nothing.  The order of a directory listing is left
    open by Python; the model takes the order of the map. *)
Definition os_walk (root : string) : M (list (string * string)) :=
  λ w, (Ret (if bool_decide (root = EmptyString) then []
             else omap (λ kv,
                    let path := fst kv in
                    if below (PosixPath.normpath root) path
                    then Some (PosixPath.dirname path, PosixPath.basename path)
                    else None) (map_to_list (files w))), w).

(** The non-empty prefixes of a list of path components. *)
Fixpoint prefixes (comps : list string) : list (list string) :=
  match comps with
  | [] => []
  | c :: rest => [c] :: map (cons c) (prefixes rest)
  end.

(** The directories on the way to [path], [path] included. *)
Definition ancestors (path : string) : list string :=
  let root := if startswith path PosixPath.sep then PosixPath.sep
              else EmptyString in
  map (λ comps, root +:+ join PosixPath.sep comps)
      (prefixes (PosixPath.norm_comps path)).

(** [os.makedirs(path, exist_ok=True)]: fails when a regular file is in
    the way. *)
Definition os_makedirs (path : string) : M unit :=
  λ w,
    if existsb (is_file (files w)) (ancestors path)
    then (Raise (ExceptionInstance "FileExistsError" path), w)
    else emit (EvMakeDirs path) w.

(** [with open(path, "w") as f: f.write(text)] *)
Definition write_file (path text : string) : M unit :=
  λ w,
    if is_dir (files w) path
    then (Raise (ExceptionInstance "IsADirectoryError" path), w)
    else (Ret tt, World (<[PosixPath.normpath path := text]> (files w))
                        (trace w ++ [EvWrite path text])).

(** [os.remove] *)
Definition os_remove (path : string) : M unit :=
  λ w,
    if is_file (files w) path
    then (Ret tt, World (delete (PosixPath.normpath path) (files w))
                        (trace w ++ [EvRemove path]))
    else if is_dir (files w) path
    then (Raise (ExceptionInstance "IsADirectoryError" path), w)
    else (Raise (ExceptionInstance "FileNotFoundError" path), w).

(** The files after the events [evs], from the files [fs] before them. *)
Definition replay (evs : list event) (fs : gmap string string)
    : gmap string string :=
  foldl (λ fs ev,
           match ev with
           | EvWrite path text => <[PosixPath.normpath path := text]> fs
           | EvRemove path => delete (PosixPath.normpath path) fs
           | _ => fs
           end) fs evs.


End Os.

(** ** [generate_tests.py] *)

Module GenerateTests.
Import PyStr Os.

(** A test case: the named arguments in the order of the dict, and the
    expected output. *)
Record test_case := TestCase {
  input : list (string * value);
  output : value
}.

(** An entry of [test_specifications]. *)
Record spec := Spec {
  function_name : string;
  test_cases : list test_case
}.

(** What executing a source file as a module comes to: the names it
    defines, or the exception it raises. *)
Inductive load_outcome :=
  | Loaded (attrs : list string)
  | Raised (e : exn).

Definition enumerate {A} (l : list A) : list (nat * A) :=
  zip (seq 0 (length l)) l.

Section Generator.

(** The table imported from [test_specs], and the interpreter: the
    outcome of executing the text of the file at [path] as the module
    [name]. *)
Variable test_specifications : gmap string spec.
Variable py_exec : string → string → string → load_outcome.

Definition get_src_files (root_dir : string) : M (list string) :=
  walk ← os_walk root_dir;
  mret (foldl (λ src_files '(dirpath, filename),
          if endswith filename ".py"
             && negb (bool_decide (filename = "__init__.py"))
          then
            let rel_path :=
              PosixPath.relpath (PosixPath.join dirpath filename) root_dir in
            (src_files
               ++ [replace (replace rel_path ".py" EmptyString)
                     PosixPath.sep "/"])%list
          else src_files) [] walk).

Definition get_test_files (root_dir : string) : M (list string) :=
  walk ← os_walk root_dir;
  mret (foldl (λ test_files '(dirpath, filename),
          if startswith filename "test_" && endswith filename ".py"
          then
            let rel_path :=
              PosixPath.relpath (PosixPath.join dirpath filename) root_dir in
            (test_files
               ++ [replace (replace (replace rel_path ".py" EmptyString)
                              "test_" EmptyString)
                     PosixPath.sep "/"])%list
          else test_files) [] walk).

(** [spec.loader.exec_module(module)]: the file is read and executed.
    Building the spec and the empty module before it touches nothing.
    The load is taken to leave the files as they are: the interpreter
    writes no byte-code cache (as with [python -B]) and the code at the
    top of the unit touches no file. *)
Definition exec_module (name path : string) : M (list string) :=
  λ w, match files w !! PosixPath.normpath path with
       | Some text =>
           let w' := World (files w) (trace w ++ [EvExec name path]) in
           match py_exec name path text with
           | Loaded attrs => (Ret attrs, w')
           | Raised e => (Raise e, w')
           end
       | None =>
           (Raise (ExceptionInstance
                     (if is_dir (files w) path then "IsADirectoryError"
                      else "FileNotFoundError") path), w)
       end.

Definition hasattr (module : list string) (name : string) : bool :=
  bool_decide (name ∈ module).

Definition validate_function (src_path function_name : string)
    (verbose : bool) : M bool :=
  let full_src_path := PosixPath.join "src" (src_path +:+ ".py") in
  found ← os_path_exists full_src_path;
  if negb found then mret false
  else
    try_except_Exception
      (module ← exec_module (replace src_path "/" ".") full_src_path;
       let exists_ := hasattr module function_name in
       when (verbose && negb exists_)
         (print ("Warning: " +:+ function_name +:+ " not found in "
                   +:+ full_src_path));;
       mret exists_)
      (λ e,
         when verbose
           (text ← str_of_exn e;
            print ("Error loading " +:+ full_src_path +:+ ": " +:+ text));;
         mret false).

(** Lines 84 to 92: the text of the test file. *)
Definition test_content (src_path function_name : string)
    (test_cases : list test_case) : string :=
  let import_path := "src." +:+ replace src_path "/" "." in
  let content :=
    "from " +:+ import_path +:+ " import " +:+ function_name +:+ LF +:+ LF in
  foldl (λ content '(i, case),
           let input_args :=
             join ", " (map (λ '(k, v), k +:+ "=" +:+ repr v) (input case)) in
           let output := repr (output case) in
           let content :=
             content +:+ ("def test_case_" +:+ str_nat i +:+ "():" +:+ LF) in
           content +:+ ("    assert " +:+ function_name +:+ "(" +:+ input_args
                          +:+ ") == " +:+ output +:+ LF +:+ LF))
        content (enumerate test_cases).

Definition test_filepath_of (src_path : string) : string :=
  let test_dir := PosixPath.join "tests" (PosixPath.dirname src_path) in
  let test_filename := "test_" +:+ PosixPath.basename src_path +:+ ".py" in
  PosixPath.join test_dir test_filename.

Definition generate_test_file (src_path : string) (specs : spec)
    (force verbose : bool) : M unit :=
  let test_dir := PosixPath.join "tests" (PosixPath.dirname src_path) in
  let test_filename := "test_" +:+ PosixPath.basename src_path +:+ ".py" in
  let test_filepath := PosixPath.join test_dir test_filename in
  present ← os_path_exists test_filepath;
  if present && negb force then
    when verbose (print ("Skipping " +:+ test_filepath +:+ " (already exists)"))
  else
    let function_name := function_name specs in
    valid ← validate_function src_path function_name verbose;
    if negb valid then
      print ("Error: " +:+ function_name +:+ " not found in src/" +:+ src_path
               +:+ ".py, skipping")
    else
      os_makedirs test_dir;;
      let content := test_content src_path function_name (test_cases specs) in
      write_file test_filepath content;;
      still ← os_path_exists test_filepath;
      print ((if force && still then "Regenerated" else "Generated")
               +:+ " " +:+ test_filepath).

Definition clean_orphaned_tests (src_files : list string) (verbose : bool)
    : M unit :=
  test_files ← get_test_files "tests";
  for_each test_files (λ test_path : string,
    if negb (bool_decide (test_path ∈ src_files)) then
      let test_filepath := PosixPath.join "tests" (test_path +:+ ".py") in
      present ← os_path_exists test_filepath;
      if present : bool then
        os_remove test_filepath;;
        print ("Removed orphaned test file: " +:+ test_filepath)
      else
        when verbose
          (print ("Test file " +:+ test_filepath +:+ " already removed"))
    else mret tt).

(** [main], with the two command-line flags as arguments. *)
Definition main (force verbose : bool) : M unit :=
  src_files ← get_src_files "src";
  when verbose
    (print ("Found source files: " +:+ repr (VList (map VStr src_files))));;
  clean_orphaned_tests src_files verbose;;
  for_each src_files (λ src_path,
    match test_specifications !! src_path with
    | Some specs => generate_test_file src_path specs force verbose
    | None =>
        when verbose
          (print ("No test specs found for src/" +:+ src_path +:+ ".py"))
    end).

End Generator.



(** The format of the generated file in the words of the specification,
    to be compared with [test_content]: the module path is [src] and the
    components of the identifier joined by dots; then a blank line; then
    one test function per case, named by the position of the case. *)
Definition module_path (src_path : string) : string :=
  join "." ("src" :: split src_path "/").

Definition named_arguments (case : test_case) : string :=
  join ", " (map (λ kv, fst kv +:+ "=" +:+ repr (snd kv)) (input case)).

Definition test_function (function_name : string) (i : nat) (case : test_case)
    : string :=
  "def test_case_" +:+ str_nat i +:+ "():" +:+ LF
  +:+ "    assert " +:+ function_name +:+ "(" +:+ named_arguments case
  +:+ ") == " +:+ repr (output case) +:+ LF
  +:+ LF.

Definition specified_content (src_path function_name : string)
    (test_cases : list test_case) : string :=
  "from " +:+ module_path src_path +:+ " import " +:+ function_name +:+ LF
  +:+ LF
  +:+ String.concat EmptyString (imap (test_function function_name) test_cases).

End GenerateTests.

(** ** [repr] and the run it is called in *)

Module PyRepr.
Import PyStr GenerateTests.










End PyRepr.

(** ** The parts of the enumerations, by name *)

Module Enumerations.
Import PyStr Os.

(** The identifier that [get_src_files] and [get_test_files] make of a
    relative path. *)
Definition src_identifier (rel_path : string) : string :=
  replace (replace rel_path ".py" EmptyString) PosixPath.sep "/".

Definition test_identifier (rel_path : string) : string :=
  replace (replace (replace rel_path ".py" EmptyString) "test_" EmptyString)
    PosixPath.sep "/".

(** [old in s] *)
Fixpoint has_sub (old s : string) : bool :=
  startswith s old
  || match s with
     | EmptyString => false
     | String _ rest => has_sub old rest
     end.

End Enumerations.

(** ** Concrete inputs: a table, source texts and an interpreter for them *)

Module Scenario.
Import PyStr Os GenerateTests PyRepr.

(** Modelled from the spec: the module [test_specs] that holds
    [test_specifications] is not among the sources.  This is the entry of
    the scenario for [arrays/has_duplicate]: the entry point
    [has_duplicate] and the one case [{nums: [1,2,3,1]} -> True]. *)
Definition has_duplicate_spec : spec :=
  Spec "has_duplicate"
    [TestCase [("nums", VList [VInt 1; VInt 2; VInt 3; VInt 1])] (VBool true)].

(** A table with that entry and one for a solution [graphs/shortest_path],
    without cases. *)
Definition table : gmap string spec :=
  {[ "arrays/has_duplicate" := has_duplicate_spec;
     "graphs/shortest_path" := Spec "shortest_path" [] ]}.

(** The text of [src/arrays/has_duplicate.py], and three more sources: one
    that defines [shortest_path], one that exits while it is loaded, and
    one with a syntax error. *)
Definition has_duplicate_py : string :=
  "def has_duplicate(nums: list[int]) -> bool:" +:+ LF
  +:+ "    s = set()" +:+ LF
  +:+ "    for i in nums:" +:+ LF
  +:+ "        if i in s: return True" +:+ LF
  +:+ "        s.add(i)" +:+ LF
  +:+ "    return False".
Definition shortest_path_py : string :=
  "def shortest_path(graph, source): return {}".
Definition exits_py : string := "import sys; sys.exit(1)".
Definition broken_py : string := "def has_duplicate(nums:".

(** What Python makes of these texts when it executes them as a module. *)
Definition interp (name path text : string) : load_outcome :=
  if bool_decide (text = has_duplicate_py) then Loaded ["has_duplicate"]
  else if bool_decide (text = shortest_path_py) then Loaded ["shortest_path"]
  else if bool_decide (text = exits_py)
       then Raised (BaseExceptionOnly "SystemExit" "1")
  else if bool_decide (text = broken_py)
       then Raised (ExceptionInstance "SyntaxError" "'(' was never closed")
  else Loaded [].

(** The text the generator writes for [arrays/has_duplicate]. *)
Definition has_duplicate_test : string :=
  "from src.arrays.has_duplicate import has_duplicate" +:+ LF +:+ LF
  +:+ "def test_case_0():" +:+ LF
  +:+ "    assert has_duplicate(nums=[1, 2, 3, 1]) == True" +:+ LF +:+ LF.

(** The world before a run: the files, and nothing done yet. *)
Definition start (fs : gmap string string) : world := World fs [].



End Scenario.

Module HasDuplicateFacts.
Import HasDuplicate.

Lemma loop_false (nums : list Z) : ∀ s : gset Z,
  loop s nums = false ↔ NoDup nums ∧ ∀ x, x ∈ nums → x ∉ s.
Proof.
  induction nums as [|i rest IH]; intros s; simpl.
  - split; [intros _ | reflexivity].
    split; [constructor | intros x Hx; by apply elem_of_nil in Hx].
  - case_bool_decide as Hin.
    + split; [discriminate |].
      intros [_ Hs]. exfalso. apply (Hs i); [left | exact Hin].
    + rewrite IH, NoDup_cons. split.
      * intros [Hnd Hs]. split; [split; [| exact Hnd] |].
        -- intros Hi. apply (Hs i Hi), elem_of_union_l, elem_of_singleton_2.
           reflexivity.
        -- intros x Hx Hxs. apply elem_of_cons in Hx as [-> | Hx].
           ++ contradiction.
           ++ apply (Hs x Hx), elem_of_union_r, Hxs.
      * intros [[Hi Hnd] Hs]. split; [exact Hnd |].
        intros x Hx Hxs. apply elem_of_union in Hxs as [Hxi | Hxs].
        -- apply elem_of_singleton in Hxi as ->. contradiction.
        -- apply (Hs x); [by right | exact Hxs].
Qed.

Lemma has_duplicate_false (nums : list Z) :
  has_duplicate nums = false ↔ NoDup nums.
Proof.
  unfold has_duplicate. rewrite loop_false. split; [by intros [? _] |].
  intros Hnd; split; [exact Hnd |]. intros x _. apply not_elem_of_empty.
Qed.

Lemma repeats_not_NoDup (nums : list Z) : repeats nums ↔ ¬ NoDup nums.
Proof.
  split.
  - intros (i & j & x & Hlt & Hi & Hj) Hnd.
    pose proof (NoDup_lookup _ _ _ _ Hnd Hi Hj). lia.
  - intros Hnot. induction nums as [|a rest IH].
    + destruct Hnot. constructor.
    + destruct (decide (a ∈ rest)) as [Hin | Hnin].
      * apply list_elem_of_lookup in Hin as [j Hj].
        exists 0, (S j), a. split; [lia | split; [reflexivity | exact Hj]].
      * destruct IH as (i & j & x & Hlt & Hi & Hj).
        { intros Hnd. apply Hnot. by constructor. }
        exists (S i), (S j), x. split; [lia | split; [exact Hi | exact Hj]].
Qed.

(** C10: [has_duplicate nums] is [True] exactly when some value occurs at
    two positions [i < j] of [nums], and [False] exactly when the
    elements of [nums] are pairwise distinct. *)
Theorem has_duplicate_correct (nums : list Z) :
  (has_duplicate nums = true ↔ repeats nums) ∧
  (has_duplicate nums = false ↔ NoDup nums).
Proof.
  split; [| apply has_duplicate_false].
  rewrite repeats_not_NoDup, <- has_duplicate_false.
  destruct (has_duplicate nums); split; congruence.
Qed.

End HasDuplicateFacts.

(** ** Facts about the statements of a run *)

Module OsFacts.
Import PyStr Os.

















End OsFacts.

(** ** Facts about the generator *)

Module GenerateTestsFacts.
Import PyStr Os OsFacts GenerateTests.

Lemma append_cons (x : ascii) (a b : string) :
  String x a +:+ b = String x (a +:+ b).
Proof. reflexivity. Qed.

Lemma append_assoc (a b c : string) : (a +:+ b) +:+ c = a +:+ (b +:+ c).
Proof.
  induction a as [|x a IH]; [reflexivity |].
  by rewrite !append_cons, IH.
Qed.

Lemma append_nil_r (a : string) : a +:+ EmptyString = a.
Proof.
  induction a as [|x a IH]; [reflexivity |].
  by rewrite append_cons, IH.
Qed.

Lemma split_nonempty (s : string) (c : ascii) : split s c ≠ [].
Proof.
  induction s as [|x s IH]; simpl; [discriminate |].
  destruct (decide (x = c)); [discriminate |].
  destruct (split s c); [contradiction | discriminate].
Qed.

Lemma prefix_nil (s : string) : String.prefix EmptyString s = true.
Proof. by destruct s. Qed.

Lemma replace_slash_dot (s : string) :
  replace s "/" "." = join "." (split s "/").
Proof.
  unfold replace, join. induction s as [|x s IH]; [reflexivity |].
  pose proof (split_nonempty s "/") as Hne.
  cbn [replace_from split].
  destruct (decide (x = "/"%char)) as [-> | Hx].
  - unfold startswith. cbn [String.prefix].
    destruct (ascii_dec "/" "/") as [_ | E]; [| done]. rewrite prefix_nil.
    cbn [String.length Nat.sub]. rewrite IH.
    destruct (split s "/"); [contradiction | reflexivity].
  - assert (startswith (String x s) "/" = false) as ->.
    { unfold startswith. cbn [String.prefix].
      destruct (ascii_dec "/" x) as [E | E]; [by subst | reflexivity]. }
    rewrite IH. destruct (split s "/") as [|h t]; [contradiction |].
    destruct t; reflexivity.
Qed.

Lemma module_path_eq (src_path : string) :
  "src." +:+ replace src_path "/" "." = module_path src_path.
Proof.
  unfold module_path. rewrite replace_slash_dot. unfold join.
  pose proof (split_nonempty src_path "/").
  destruct (split src_path "/"); [contradiction | reflexivity].
Qed.

Lemma concat_cons (x : string) (l : list string) :
  String.concat EmptyString (x :: l) = x +:+ String.concat EmptyString l.
Proof.
  destruct l as [|y l]; simpl; [by rewrite append_nil_r | reflexivity].
Qed.

Lemma named_arguments_eq (case : test_case) :
  join ", " (map (λ '(k, v), k +:+ "=" +:+ repr v) (input case))
  = named_arguments case.
Proof. unfold named_arguments. f_equal. apply map_ext. by intros [k v]. Qed.

Lemma content_loop (function_name : string) (cases : list test_case) :
  ∀ (start : nat) (content : string),
    foldl (λ content '(i, case),
             let input_args :=
               join ", " (map (λ '(k, v), k +:+ "=" +:+ repr v) (input case)) in
             let output := repr (output case) in
             let content :=
               content +:+ ("def test_case_" +:+ str_nat i +:+ "():" +:+ LF) in
             content +:+ ("    assert " +:+ function_name +:+ "(" +:+ input_args
                            +:+ ") == " +:+ output +:+ LF +:+ LF))
          content (zip (seq start (length cases)) cases)
    = content +:+ String.concat EmptyString
                    (imap (λ i, test_function function_name (start + i)) cases).
Proof.
  induction cases as [|case rest IH]; intros start content.
  - simpl. by rewrite append_nil_r.
  - cbn [length seq zip zip_with foldl imap].
    rewrite IH, concat_cons, Nat.add_0_r, named_arguments_eq.
    rewrite (imap_ext (λ i, test_function function_name (S start + i))
               ((λ i, test_function function_name (start + i)) ∘ S) rest)
      by (intros i x _; simpl; f_equal; lia).
    unfold test_function. rewrite !append_assoc. reflexivity.
Qed.

Lemma bind_run {A B} (m : M A) (k : A → M B) (w : world) :
  (m ≫= k) w = match m w with
               | (Ret a, w') => k a w'
               | (Raise e, w') => (Raise e, w')
               end.
Proof. reflexivity. Qed.

Lemma bind_os_path_exists {B} (path : string) (k : bool → M B) (w : world) :
  (os_path_exists path ≫= k) w
  = k (is_file (files w) path || is_dir (files w) path) w.
Proof. reflexivity. Qed.

Lemma world_eta (w : world) : World (files w) (trace w ++ []) = w.
Proof. destruct w. cbn. by rewrite app_nil_r. Qed.

(** A loop that returns has reached every item. *)
Lemma iterations_complete {A} (xs : list A) (body : A → M unit) (w : world) :
  fst (for_each xs body w) = Ret tt → map fst (iterations xs body w) = xs.
Proof.
  revert w. induction xs as [|x xs IH]; intros w; [reflexivity |].
  cbn [for_each iterations map fst]. rewrite bind_run.
  destruct (body x w) as [[[] | e] w1]; [| discriminate].
  intros Hrest. f_equal. by apply IH.
Qed.

(** A loop ends as the last iteration it reaches. *)
Lemma for_each_last {A} (xs : list A) (body : A → M unit) (w : world) :
  for_each xs body w
  = match last (iterations xs body w) with
    | Some (x, wi) => body x wi
    | None => (Ret tt, w)
    end.
Proof.
  revert w. induction xs as [|x xs IH]; intros w; [reflexivity |].
  cbn [for_each iterations]. rewrite bind_run, last_cons.
  destruct (body x w) as [[[] | e] w1] eqn:Hbody.
  - rewrite IH. destruct (last (iterations xs body w1)) as [[y wi] |]; [done |].
    by rewrite Hbody.
  - cbn. by rewrite Hbody.
Qed.


(** C9: the rendered text is the import line naming the entry point and
    the dotted module path rooted at [src], a blank line, and then one
    test function per case in the order of the cases, each named by the
    position of its case and asserting that the call with the named
    arguments as literals equals the expected output as a literal.  For
    [arrays/has_duplicate] with the one case [{nums: [1,2,3,1]} -> True]
    the single test asserts [has_duplicate(nums=[1, 2, 3, 1]) == True]. *)
Theorem test_content_format (src_path function_name : string)
    (test_cases : list test_case) :
  test_content src_path function_name test_cases
  = specified_content src_path function_name test_cases
  ∧ test_content "arrays/has_duplicate" "has_duplicate"
      [TestCase [("nums", VList [VInt 1; VInt 2; VInt 3; VInt 1])] (VBool true)]
    = "from src.arrays.has_duplicate import has_duplicate" +:+ LF
      +:+ LF
      +:+ "def test_case_0():" +:+ LF
      +:+ "    assert has_duplicate(nums=[1, 2, 3, 1]) == True" +:+ LF
      +:+ LF.
Proof.
  split; [| reflexivity].
  unfold test_content, specified_content, enumerate.
  rewrite content_loop, module_path_eq, !append_assoc. reflexivity.
Qed.

Section WithInterpreter.

Variable test_specifications : gmap string spec.
Variable py_exec : string → string → string → load_outcome.




(** What [generate_test_file] does, by the skip rule and the outcome of
    the validation. *)
Lemma generate_test_file_policy (src_path : string) (specs : spec)
    (force verbose : bool) (w : world) :
  let test_dir := PosixPath.join "tests" (PosixPath.dirname src_path) in
  let target := test_filepath_of src_path in
  let content := test_content src_path (function_name specs) (test_cases specs) in
  let run := generate_test_file py_exec src_path specs force verbose w in
  if (is_file (files w) target || is_dir (files w) target) && negb force
  then run = (Ret tt,
              World (files w)
                (trace w ++ if verbose
                            then [EvPrint ("Skipping " +:+ target
                                             +:+ " (already exists)")]
                            else []))
  else ∃ res w1,
         validate_function py_exec src_path (function_name specs) verbose w
           = (res, w1)
         ∧ match res with
           | Raise e => run = (Raise e, w1)
           | Ret false =>
               run = (Ret tt,
                      World (files w1)
                        (trace w1
                           ++ [EvPrint ("Error: " +:+ function_name specs
                                          +:+ " not found in src/" +:+ src_path
                                          +:+ ".py, skipping")]))
           | Ret true =>
               ∃ rest,
                 trace (snd run) = trace w1 ++ rest
                 ∧ files (snd run) = replay rest (files w1)
                 ∧ (rest = [] ∨ rest = [EvMakeDirs test_dir]
                    ∨ ∃ line, rest = [EvMakeDirs test_dir; EvWrite target content;
                                      EvPrint line])
           end.
Proof.
  intros test_dir target content run. subst run. unfold generate_test_file.
  fold (test_filepath_of src_path). fold test_dir target content.
  rewrite bind_os_path_exists.
  destruct ((is_file (files w) target || is_dir (files w) target) && negb force).
  - destruct verbose; cbn [when]; [reflexivity |].
    by rewrite world_eta.
  - rewrite bind_run.
    destruct (validate_function py_exec src_path (function_name specs) verbose w)
      as [[valid | e] w1] eqn:Hval.
    + exists (Ret valid), w1. split; [reflexivity |].
      destruct valid; cbn [negb]; [| reflexivity].
      rewrite !bind_run. unfold os_makedirs.
      destruct (existsb (is_file (files w1)) (ancestors test_dir)).
      { exists []. cbn [snd]. rewrite app_nil_r.
        split; [reflexivity |]. split; [reflexivity |]. by left. }
      cbn [emit]. rewrite !bind_run. unfold write_file. cbn [files trace].
      destruct (is_dir (files w1) target).
      { exists [EvMakeDirs test_dir]. cbn [snd files trace].
        split; [reflexivity |]. split; [reflexivity |]. right. by left. }
      rewrite !bind_os_path_exists. cbn [files trace print emit snd].
      eexists. rewrite <- !app_assoc. split; [reflexivity |].
      split; [reflexivity |]. right; right. by eexists.
    + exists (Raise e), w1. by split.
Qed.

(** C4, as amended: after the enumeration and the sweep, [main] runs the
    loop over the solution identifiers, and ends as the last iteration it
    reaches; a run that returns has reached every identifier.  The
    iteration of an identifier with an entry in the table is
    [generate_test_file], which first applies the skip rule of the write
    policy.  When the target exists and [force] is unset, nothing is
    validated: no file changes and the only output is the skip notice
    under [verbose].  Otherwise the iteration starts with the validation;
    an exception of the validation ends it, a failed validation is
    followed by the error line alone, and only after a successful one are
    the directories created and the rendered text written and reported,
    with no further load. *)
Theorem validation_follows_skip_check (force verbose : bool) (w : world) :
  let item := λ src_path : string,
    match test_specifications !! src_path with
    | Some specs => generate_test_file py_exec src_path specs force verbose
    | None =>
        when verbose
          (print ("No test specs found for src/" +:+ src_path +:+ ".py"))
    end in
  let run := main test_specifications py_exec force verbose w in
  ∃ src_files,
    get_src_files "src" w = (Ret src_files, w)
    ∧ let found :=
        if verbose
        then World (files w)
               (trace w ++ [EvPrint ("Found source files: "
                                       +:+ repr (VList (map VStr src_files)))])
        else w in
      match clean_orphaned_tests src_files verbose found with
      | (Raise e, swept) => run = (Raise e, swept)
      | (Ret _, swept) =>
          run = for_each src_files item swept
          ∧ run = match last (iterations src_files item swept) with
                  | Some (src_path, wi) => item src_path wi
                  | None => (Ret tt, swept)
                  end
          ∧ (fst run = Ret tt →
               map fst (iterations src_files item swept) = src_files)
          ∧ ∀ src_path specs wi,
              (src_path, wi) ∈ iterations src_files item swept →
              test_specifications !! src_path = Some specs →
              let test_dir := PosixPath.join "tests" (PosixPath.dirname src_path) in
              let target := test_filepath_of src_path in
              let content :=
                test_content src_path (function_name specs) (test_cases specs) in
              let step := generate_test_file py_exec src_path specs force verbose wi in
              item src_path wi = step
              ∧ if (is_file (files wi) target || is_dir (files wi) target)
                   && negb force
                then step = (Ret tt,
                             World (files wi)
                               (trace wi
                                  ++ if verbose
                                     then [EvPrint ("Skipping " +:+ target
                                                      +:+ " (already exists)")]
                                     else []))
                else ∃ res w1,
                       validate_function py_exec src_path (function_name specs)
                         verbose wi = (res, w1)
                       ∧ match res with
                         | Raise e => step = (Raise e, w1)
                         | Ret false =>
                             step = (Ret tt,
                                     World (files w1)
                                       (trace w1
                                          ++ [EvPrint ("Error: "
                                                +:+ function_name specs
                                                +:+ " not found in src/"
                                                +:+ src_path +:+ ".py, skipping")]))
                         | Ret true =>
                             ∃ rest,
                               trace (snd step) = trace w1 ++ rest
                               ∧ files (snd step) = replay rest (files w1)
                               ∧ (rest = [] ∨ rest = [EvMakeDirs test_dir]
                                  ∨ ∃ line,
                                      rest = [EvMakeDirs test_dir;
                                              EvWrite target content;
                                              EvPrint line])
                         end
      end.
Proof.
  intros item run.
  assert (∃ src_files, get_src_files "src" w = (Ret src_files, w))
    as [src_files Hsrc] by (eexists; reflexivity).
  exists src_files. split; [exact Hsrc |]. intros found.
  assert (run = (clean_orphaned_tests src_files verbose;;
                 for_each src_files item) found) as Hrun.
  { subst run found. unfold main. rewrite bind_run, Hsrc, bind_run.
    by destruct verbose. }
  rewrite bind_run in Hrun.
  destruct (clean_orphaned_tests src_files verbose found) as [[[] | e] swept];
    [| exact Hrun].
  split; [exact Hrun |]. split.
  { rewrite Hrun. apply for_each_last. }
  split.
  { rewrite Hrun. apply iterations_complete. }
  intros src_path specs wi _ Hspec. split.
  { subst item. cbn beta. by rewrite Hspec. }
  apply generate_test_file_policy.
Qed.


End WithInterpreter.

End GenerateTestsFacts.

(** ** Facts about [repr] across runs *)

Module ReprFacts.
Import PyStr GenerateTests GenerateTestsFacts PyRepr.








End ReprFacts.

(** ** The runs of the scenario *)

Module Runs.
Import PyStr Os GenerateTests PyRepr Scenario.

(** C1: the orphan sweep is meant to delete the generated test file of
    every test identifier without a solution.  Here the source of
    [arrays/has_duplicate] is gone and its generated test is still there:
    the identifier is found and is no solution identifier, yet the run
    leaves the test file in place and reports no removal, because the
    sweep looks for [tests/arrays/has_duplicate.py]. *)
Theorem orphaned_test_file_survives
    (specs : gmap string spec) (py_exec : string → string → string → load_outcome) :
  let w := start {[ "tests/arrays/test_has_duplicate.py" := has_duplicate_test ]} in
  get_src_files "src" w = (Ret [], w)
  ∧ get_test_files "tests" w = (Ret ["arrays/has_duplicate"], w)
  ∧ main specs py_exec false false w = (Ret tt, w)
  ∧ main specs py_exec false true w
    = (Ret tt,
       World (files w)
         [EvPrint "Found source files: []";
          EvPrint "Test file tests/arrays/has_duplicate.py already removed"]).
Proof. vm_compute. repeat split. Qed.

(** C2: the two enumerations are meant to give a solution and its
    generated test the same identifier.  For [src/graphs/shortest_path.py]
    the solutions enumeration gives [graphs/shortest_path], the generator
    writes [tests/graphs/test_shortest_path.py], and the tests enumeration
    gives that file the identifier [graphs/shorpath]: [replace] removes
    the [test_] inside [shortest_path] too. *)
Theorem identifiers_disagree_on_shortest_path :
  let w := start {[ "src/graphs/shortest_path.py" := shortest_path_py ]} in
  let w' := snd (main table interp false false w) in
  files w' = {[ "src/graphs/shortest_path.py" := shortest_path_py;
                "tests/graphs/test_shortest_path.py" :=
                  "from src.graphs.shortest_path import shortest_path" +:+ LF +:+ LF ]}
  ∧ test_filepath_of "graphs/shortest_path" = "tests/graphs/test_shortest_path.py"
  ∧ fst (get_src_files "src" w') = Ret ["graphs/shortest_path"]
  ∧ fst (get_test_files "tests" w') = Ret ["graphs/shorpath"].
Proof. vm_compute. repeat split. Qed.

(** C3: a forced run on a target that does not exist yet is meant to
    report the file as generated.  The run below starts without the test
    file, writes it with [force] set, and reports it as regenerated: the
    existence test comes after the write. *)
Theorem forced_first_write_says_regenerated :
  let w := start {[ "src/arrays/has_duplicate.py" := has_duplicate_py ]} in
  fst (os_path_exists "tests/arrays/test_has_duplicate.py" w) = Ret false
  ∧ generate_test_file interp "arrays/has_duplicate" has_duplicate_spec true false w
    = (Ret tt,
       World {[ "src/arrays/has_duplicate.py" := has_duplicate_py;
                "tests/arrays/test_has_duplicate.py" := has_duplicate_test ]}
         [EvExec "arrays.has_duplicate" "src/arrays/has_duplicate.py";
          EvMakeDirs "tests/arrays";
          EvWrite "tests/arrays/test_has_duplicate.py" has_duplicate_test;
          EvPrint "Regenerated tests/arrays/test_has_duplicate.py"]).
Proof. vm_compute. repeat split. Qed.

(** C4 does not hold as stated: with the test file of a specified
    solution in place and [force] unset, a run loads nothing and changes
    nothing; under [verbose] it prints the skip notice only. *)
Lemma existing_target_is_skipped_unvalidated :
  let w := start {[ "src/arrays/has_duplicate.py" := has_duplicate_py;
                    "tests/arrays/test_has_duplicate.py" := "stale" ]} in
  table !! "arrays/has_duplicate" = Some has_duplicate_spec
  ∧ fst (get_src_files "src" w) = Ret ["arrays/has_duplicate"]
  ∧ main table interp false false w = (Ret tt, w)
  ∧ main table interp false true w
    = (Ret tt,
       World (files w)
         [EvPrint "Found source files: ['arrays/has_duplicate']";
          EvPrint "Skipping tests/arrays/test_has_duplicate.py (already exists)"]).
Proof. vm_compute. repeat split. Qed.


(** An [Exception] whose [__str__] raises: under [verbose] the handler of
    [validate_function] fails while it builds the line that names the
    cause, and what [__str__] raised reaches the caller; without
    [verbose] the result is [False]. *)
Lemma raising_str_reaches_the_caller :
  let w := start {[ "src/arrays/has_duplicate.py" := has_duplicate_py ]} in
  let odd := ExceptionNoStr "Odd" (ExceptionInstance "RuntimeError" "no text") in
  let py_exec := λ _ _ _ : string, Raised odd in
  validate_function py_exec "arrays/has_duplicate" "has_duplicate" true w
  = (Raise (ExceptionInstance "RuntimeError" "no text"),
     World (files w) [EvExec "arrays.has_duplicate" "src/arrays/has_duplicate.py"])
  ∧ validate_function py_exec "arrays/has_duplicate" "has_duplicate" false w
    = (Ret false,
       World (files w) [EvExec "arrays.has_duplicate" "src/arrays/has_duplicate.py"]).
Proof. vm_compute. repeat split. Qed.

(** C6: a second run without [force] is meant to change nothing.  After
    a first run has generated [tests/graphs/test_shortest_path.py], the
    second run takes that file for the test of [graphs/shorpath], finds no
    such solution and removes [tests/graphs/shorpath.py], a file the first
    run had left alone. *)
Theorem second_run_removes_a_file :
  let w0 := start {[ "src/graphs/shortest_path.py" := shortest_path_py;
                     "tests/graphs/shorpath.py" := "fixtures" ]} in
  let generated := "from src.graphs.shortest_path import shortest_path" +:+ LF +:+ LF in
  let fs1 := {[ "src/graphs/shortest_path.py" := shortest_path_py;
                "tests/graphs/shorpath.py" := "fixtures";
                "tests/graphs/test_shortest_path.py" := generated ]} in
  main table interp false false w0
  = (Ret tt,
     World fs1
       [EvExec "graphs.shortest_path" "src/graphs/shortest_path.py";
        EvMakeDirs "tests/graphs";
        EvWrite "tests/graphs/test_shortest_path.py" generated;
        EvPrint "Generated tests/graphs/test_shortest_path.py"])
  ∧ main table interp false false (start fs1)
    = (Ret tt,
       World {[ "src/graphs/shortest_path.py" := shortest_path_py;
                "tests/graphs/test_shortest_path.py" := generated ]}
         [EvRemove "tests/graphs/shorpath.py";
          EvPrint "Removed orphaned test file: tests/graphs/shorpath.py"]).
Proof. vm_compute. repeat split. Qed.

(** C8: the test file of a solution without an entry in the table is
    meant to stay as it is.  With an empty table, the file
    [test_tetest_st_has_duplicate.py] gets the identifier
    [arrays/test_has_duplicate], which is no solution, and the sweep
    removes [tests/arrays/test_has_duplicate.py]: the test file of the
    solution [arrays/has_duplicate]. *)
Theorem unspecified_solution_loses_its_test
    (py_exec : string → string → string → load_outcome) :
  let w := start {[ "src/arrays/has_duplicate.py" := has_duplicate_py;
                    "tests/arrays/test_has_duplicate.py" := "written by hand";
                    "tests/arrays/test_tetest_st_has_duplicate.py" := "other" ]} in
  fst (get_src_files "src" w) = Ret ["arrays/has_duplicate"]
  ∧ (∅ : gmap string spec) !! "arrays/has_duplicate" = None
  ∧ main ∅ py_exec false false w
    = (Ret tt,
       World {[ "src/arrays/has_duplicate.py" := has_duplicate_py;
                "tests/arrays/test_tetest_st_has_duplicate.py" := "other" ]}
         [EvRemove "tests/arrays/test_has_duplicate.py";
          EvPrint "Removed orphaned test file: tests/arrays/test_has_duplicate.py"]).
Proof. vm_compute. repeat split. Qed.


End Runs.

(** ** Further facts about [has_duplicate] *)

Module HasDuplicateLaws.
Import HasDuplicate HasDuplicateFacts.

Lemma size_list_to_set_le (l : list Z) :
  size (list_to_set l : gset Z) ≤ length l.
Proof.
  induction l as [|x l IH].
  - by rewrite list_to_set_nil, size_empty.
  - rewrite list_to_set_cons, length_cons, size_union_alt.
    rewrite size_singleton.
    assert (size (list_to_set l ∖ {[x]} : gset Z) ≤ size (list_to_set l : gset Z)).
    { apply subseteq_size. intros y Hy. by apply elem_of_difference in Hy as [? _]. }
    lia.
Qed.

Lemma NoDup_size (l : list Z) :
  NoDup l ↔ size (list_to_set l : gset Z) = length l.
Proof.
  split; [apply size_list_to_set |].
  induction l as [|x l IH]; intros Hsize; [constructor |].
  rewrite list_to_set_cons, length_cons in Hsize.
  pose proof (size_list_to_set_le l) as Hle.
  destruct (decide (x ∈ l)) as [Hin | Hnin].
  - assert ({[x]} ∪ list_to_set l = (list_to_set l : gset Z)) as Heq.
    { apply subseteq_union_1_L, singleton_subseteq_l, elem_of_list_to_set, Hin. }
    rewrite Heq in Hsize. lia.
  - rewrite size_union, size_singleton in Hsize.
    + constructor; [exact Hnin | apply IH; lia].
    + apply disjoint_singleton_l. by rewrite elem_of_list_to_set.
Qed.

(** X1: [has_duplicate nums] is [True] exactly when [nums] has fewer
    distinct values than elements: it agrees with
    [len(set(nums)) != len(nums)]. *)
Theorem has_duplicate_iff_fewer_values (nums : list Z) :
  has_duplicate nums
  = negb (size (list_to_set nums : gset Z) =? length nums).
Proof.
  destruct (has_duplicate nums) eqn:Hd; symmetry.
  - apply negb_true_iff, Nat.eqb_neq. intros Hsize.
    apply NoDup_size, has_duplicate_false in Hsize. congruence.
  - apply negb_false_iff, Nat.eqb_eq, NoDup_size, has_duplicate_false, Hd.
Qed.

(** X2: the answer does not depend on the order of the elements. *)
Theorem has_duplicate_permutation (nums nums' : list Z) :
  nums ≡ₚ nums' → has_duplicate nums = has_duplicate nums'.
Proof.
  intros Hperm.
  destruct (has_duplicate nums) eqn:H1, (has_duplicate nums') eqn:H2;
    try reflexivity.
  - apply has_duplicate_false in H2. rewrite <- Hperm in H2.
    apply has_duplicate_false in H2. congruence.
  - apply has_duplicate_false in H1. rewrite Hperm in H1.
    apply has_duplicate_false in H1. congruence.
Qed.

(** [has_duplicate_permutation] at two orders of [1, 2, 3, 1]. *)
Lemma has_duplicate_permutation_witness :
  has_duplicate [1; 2; 3; 1]%Z = has_duplicate [3; 1; 1; 2]%Z.
Proof.
  apply (has_duplicate_permutation [1; 2; 3; 1]%Z [3; 1; 1; 2]%Z).
  apply (bool_decide_unpack _). vm_compute. exact I.
Defined.

(** X3: a concatenation is free of duplicates exactly when both parts
    are and no value of the first part occurs in the second. *)
Theorem has_duplicate_app (nums more : list Z) :
  has_duplicate (nums ++ more) = false
  ↔ has_duplicate nums = false
    ∧ has_duplicate more = false
    ∧ ∀ x, x ∈ nums → x ∉ more.
Proof.
  rewrite !has_duplicate_false, NoDup_app. tauto.
Qed.

End HasDuplicateLaws.

(** ** Further facts about the generator *)

Module StringFacts.
Import PyStr Os GenerateTests GenerateTestsFacts Enumerations.

Lemma has_sub_cons (old : string) (c : ascii) (s : string) :
  has_sub old (String c s) = startswith (String c s) old || has_sub old s.
Proof. reflexivity. Qed.

(** Without an occurrence of [old] there is nothing to replace. *)
Lemma replace_from_absent (old new s : string) :
  has_sub old s = false → replace_from old new 0 s = s.
Proof.
  induction s as [|c s IH]; [reflexivity |].
  rewrite has_sub_cons. intros [Hhere Hrest]%orb_false_elim.
  cbn [replace_from]. rewrite Hhere. by rewrite IH.
Qed.

(** A match of [p] that runs into a character [p] does not hold lies
    before that character. *)
Lemma prefix_before (p x : string) (c : ascii) (y : string) :
  contains_char c p = false →
  String.prefix p (x +:+ String c y) = true → String.prefix p x = true.
Proof.
  revert x. induction p as [|a p IH]; intros x Hc Hp; [by destruct x |].
  assert (a ≠ c ∧ contains_char c p = false) as [Hac Hcp].
  { unfold contains_char in *. apply bool_decide_eq_false in Hc.
    cbn in Hc. rewrite elem_of_cons in Hc. split; [naive_solver |].
    apply bool_decide_eq_false. naive_solver. }
  destruct x as [|b x].
  - change (EmptyString +:+ String c y) with (String c y) in Hp.
    cbn [String.prefix] in Hp.
    destruct (ascii_dec a c); [contradiction | discriminate].
  - rewrite append_cons in Hp. cbn [String.prefix] in *.
    destruct (ascii_dec a b); [by apply IH | discriminate].
Qed.

Lemma has_sub_before (old x : string) (c : ascii) (y : string) :
  contains_char c old = false →
  has_sub old x = false → has_sub old (String c y) = false →
  has_sub old (x +:+ String c y) = false.
Proof.
  intros Hc. induction x as [|b x IH]; intros Hx Hy; [exact Hy |].
  rewrite append_cons, has_sub_cons.
  rewrite has_sub_cons in Hx. apply orb_false_elim in Hx as [Hhere Hrest].
  apply orb_false_intro; [| by apply IH].
  destruct (startswith (String b (x +:+ String c y)) old) eqn:E; [| reflexivity].
  unfold startswith in *. rewrite <- append_cons in E.
  apply prefix_before in E; [congruence | exact Hc].
Qed.

Lemma replace_from_before (old new x : string) (c : ascii) (y : string) :
  contains_char c old = false → has_sub old x = false →
  replace_from old new 0 (x +:+ String c y)
  = x +:+ replace_from old new 0 (String c y).
Proof.
  intros Hc. induction x as [|b x IH]; intros Hx; [reflexivity |].
  rewrite has_sub_cons in Hx. apply orb_false_elim in Hx as [Hhere Hrest].
  rewrite !append_cons. cbn [replace_from].
  destruct (startswith (String b (x +:+ String c y)) old) eqn:E.
  - unfold startswith in *. rewrite <- append_cons in E.
    apply prefix_before in E; [congruence | exact Hc].
  - by rewrite IH.
Qed.

(** The extension at the end of a name without [.py] inside is the one
    occurrence that goes. *)
Lemma prefix_cons (a b : ascii) (p s : string) :
  String.prefix (String a p) (String b s)
  = if ascii_dec a b then String.prefix p s else false.
Proof. reflexivity. Qed.

Ltac compare_chars :=
  repeat (rewrite ?append_cons, ?prefix_cons in *;
          change (EmptyString +:+ ".py") with ".py" in *;
          match goal with
          | |- context [ascii_dec ?a ?b] =>
              destruct (ascii_dec a b); try discriminate; subst
          | H : context [ascii_dec ?a ?b] |- _ =>
              destruct (ascii_dec a b); try discriminate; subst
          end);
  try done.

Lemma startswith_py_app (s : string) :
  s ≠ EmptyString → startswith s ".py" = false →
  startswith (s +:+ ".py") ".py" = false.
Proof.
  unfold startswith. intros Hne Hs.
  destruct s as [|a [|b [|c s]]]; [done | | |]; compare_chars.
  by rewrite prefix_nil in Hs.
Qed.

Lemma replace_extension (s : string) :
  has_sub ".py" s = false →
  replace_from ".py" EmptyString 0 (s +:+ ".py") = s.
Proof.
  induction s as [|c s IH]; [reflexivity |].
  rewrite has_sub_cons. intros [Hhere Hrest]%orb_false_elim.
  rewrite append_cons. cbn [replace_from].
  rewrite <- append_cons, startswith_py_app by done.
  by rewrite IH.
Qed.

(** On POSIX the replacement of [os.sep] by a slash changes nothing. *)
Lemma replace_sep (s : string) : replace s PosixPath.sep "/" = s.
Proof.
  unfold replace, PosixPath.sep. induction s as [|c s IH]; [reflexivity |].
  cbn [replace_from]. unfold startswith. cbn [String.prefix].
  destruct (ascii_dec "/" c) as [<- | Hc].
  - rewrite prefix_nil. cbn [String.length Nat.sub]. by rewrite IH.
  - by rewrite IH.
Qed.


Lemma prefix_app (p s : string) : String.prefix p (p +:+ s) = true.
Proof.
  induction p as [|a p IH]; [apply prefix_nil |].
  rewrite append_cons, prefix_cons. by destruct (ascii_dec a a).
Qed.

Lemma replace_from_skip (old new x s : string) :
  replace_from old new (String.length x) (x +:+ s) = replace_from old new 0 s.
Proof. induction x as [|a x IH]; [reflexivity | exact IH]. Qed.

(** An occurrence at the very start is replaced and passed over. *)
Lemma replace_from_here (old new s : string) :
  old ≠ EmptyString →
  replace_from old new 0 (old +:+ s) = new +:+ replace_from old new 0 s.
Proof.
  destruct old as [|a old]; [done | intros _].
  rewrite append_cons. cbn [replace_from]. unfold startswith.
  rewrite <- append_cons, prefix_app. cbn [String.length Nat.sub].
  by rewrite Nat.sub_0_r, replace_from_skip.
Qed.

Lemma startswith_other (old : string) (c : ascii) (y : string) :
  contains_char c old = false → old ≠ EmptyString →
  startswith (String c y) old = false.
Proof.
  intros Hc Hne. destruct old as [|a old]; [done |].
  unfold startswith. rewrite prefix_cons.
  destruct (ascii_dec a c) as [-> | _]; [| reflexivity].
  apply bool_decide_eq_false in Hc. destruct Hc. cbn. left.
Qed.

Lemma has_sub_other (old : string) (c : ascii) (y : string) :
  contains_char c old = false → old ≠ EmptyString →
  has_sub old (String c y) = has_sub old y.
Proof. intros Hc Hne. by rewrite has_sub_cons, startswith_other. Qed.

Lemma replace_from_other (old new : string) (c : ascii) (y : string) :
  contains_char c old = false → old ≠ EmptyString →
  replace_from old new 0 (String c y) = String c (replace_from old new 0 y).
Proof. intros Hc Hne. cbn [replace_from]. by rewrite startswith_other. Qed.

Lemma has_sub_py_test (b : string) :
  has_sub ".py" ("test_" +:+ b) = has_sub ".py" b.
Proof.
  change ("test_" +:+ b)
    with (String "t" (String "e" (String "s" (String "t" (String "_" b))))).
  by rewrite !has_sub_other.
Qed.

(** X6: for a directory part [d] and a file stem [b] that contain
    neither [.py] nor [test_], the two enumerations agree: the solution
    [d/b.py] and the test [d/test_b.py] both get the identifier [d/b], and
    at the top of the roots [b.py] and [test_b.py] both get [b]. *)
Theorem identifiers_agree_on_plain_names (d b : string) :
  has_sub ".py" d = false → has_sub ".py" b = false →
  has_sub "test_" d = false → has_sub "test_" b = false →
  src_identifier (d +:+ "/" +:+ b +:+ ".py") = d +:+ "/" +:+ b
  ∧ test_identifier (d +:+ "/" +:+ "test_" +:+ b +:+ ".py") = d +:+ "/" +:+ b
  ∧ src_identifier (b +:+ ".py") = b
  ∧ test_identifier ("test_" +:+ b +:+ ".py") = b.
Proof.
  intros Hpd Hpb Htd Htb.
  unfold src_identifier, test_identifier. rewrite !replace_sep.
  unfold replace.
  assert (has_sub ".py" (d +:+ "/" +:+ b) = false) as Hsrc.
  { apply has_sub_before; [reflexivity | exact Hpd |].
    by rewrite has_sub_other. }
  assert (has_sub ".py" (d +:+ "/" +:+ "test_" +:+ b) = false) as Htest.
  { apply (has_sub_before ".py" d "/" ("test_" +:+ b)); [reflexivity | exact Hpd |].
    by rewrite has_sub_other, has_sub_py_test. }
  repeat split.
  - rewrite <- (append_assoc d), <- (append_assoc (d +:+ "/")).
    rewrite (append_assoc d). by apply replace_extension.
  - replace (d +:+ "/" +:+ "test_" +:+ b +:+ ".py")
      with ((d +:+ "/" +:+ "test_" +:+ b) +:+ ".py")
      by (by rewrite !append_assoc).
    rewrite replace_extension by exact Htest.
    change ("/" +:+ "test_" +:+ b) with (String "/" ("test_" +:+ b)).
    rewrite (replace_from_before "test_" EmptyString d "/" ("test_" +:+ b))
      by done.
    rewrite replace_from_other by done.
    rewrite replace_from_here by done.
    by rewrite replace_from_absent.
  - by apply replace_extension.
  - replace ("test_" +:+ b +:+ ".py") with (("test_" +:+ b) +:+ ".py")
      by (by rewrite append_assoc).
    rewrite replace_extension by (by rewrite has_sub_py_test).
    rewrite replace_from_here by done.
    by rewrite replace_from_absent.
Qed.

(** [identifiers_agree_on_plain_names] at [arrays] and [has_duplicate]. *)
Lemma identifiers_agree_on_plain_names_witness :
  src_identifier ("arrays" +:+ "/" +:+ "has_duplicate" +:+ ".py")
  = "arrays" +:+ "/" +:+ "has_duplicate"
  ∧ test_identifier ("arrays" +:+ "/" +:+ "test_" +:+ "has_duplicate" +:+ ".py")
    = "arrays" +:+ "/" +:+ "has_duplicate"
  ∧ src_identifier ("has_duplicate" +:+ ".py") = "has_duplicate"
  ∧ test_identifier ("test_" +:+ "has_duplicate" +:+ ".py") = "has_duplicate".
Proof.
  apply (identifiers_agree_on_plain_names "arrays" "has_duplicate");
    reflexivity.
Defined.

End StringFacts.

Module PathFacts.
Import PyStr Os GenerateTests GenerateTestsFacts StringFacts.

Lemma append_nil_l (s : string) : EmptyString +:+ s = s.
Proof. reflexivity. Qed.

Lemma rsplit_sep_plain (b : string) :
  contains_char "/" b = false → PosixPath.rsplit_sep b = (EmptyString, b).
Proof.
  induction b as [|c b IH]; [reflexivity |]. intros Hc.
  apply bool_decide_eq_false in Hc. cbn in Hc. rewrite elem_of_cons in Hc.
  cbn [PosixPath.rsplit_sep]. rewrite IH.
  - destruct (decide (c = "/"%char)) as [-> | _]; [| reflexivity].
    destruct Hc. by left.
  - apply bool_decide_eq_false. intros Hin. apply Hc. by right.
Qed.

Lemma rsplit_sep_app (d b : string) :
  contains_char "/" b = false →
  PosixPath.rsplit_sep (d +:+ "/" +:+ b) = (d +:+ "/", b).
Proof.
  intros Hb. induction d as [|c d IH].
  - change (EmptyString +:+ "/" +:+ b) with (String "/" b).
    cbn [PosixPath.rsplit_sep]. rewrite rsplit_sep_plain by exact Hb.
    by destruct (decide ("/"%char = "/"%char)).
  - rewrite append_cons. cbn [PosixPath.rsplit_sep]. rewrite IH.
    destruct d; reflexivity.
Qed.

Lemma rstrip_sep_app (d : string) :
  PosixPath.rstrip_sep (d +:+ "/") = PosixPath.rstrip_sep d.
Proof.
  induction d as [|c d IH]; [reflexivity |].
  rewrite append_cons. cbn [PosixPath.rstrip_sep]. by rewrite IH.
Qed.

Lemma rev_app_acc (s acc : string) :
  String.rev_app s acc = String.rev_app s EmptyString +:+ acc.
Proof.
  revert acc. induction s as [|c s IH]; intros acc; [reflexivity |].
  cbn [String.rev_app]. rewrite (IH (String c acc)), (IH (String c EmptyString)).
  by rewrite append_assoc.
Qed.

Lemma endswith_sep_cons (c : ascii) (s : string) :
  endswith (String c s) "/"
  = match s with
    | EmptyString => bool_decide (c = "/"%char)
    | String _ _ => endswith s "/"
    end.
Proof.
  unfold endswith, String.rev. cbn [String.rev_app].
  rewrite (rev_app_acc s). destruct s as [|a s].
  - cbn [String.rev_app]. rewrite append_nil_l, prefix_cons.
    destruct (ascii_dec "/" c) as [<- | Hc].
    + by rewrite bool_decide_eq_true_2.
    + rewrite bool_decide_eq_false_2; [reflexivity | congruence].
  - cbn [String.rev_app]. rewrite (rev_app_acc s (String a EmptyString)).
    destruct (String.rev_app s EmptyString) as [|x r].
    + rewrite !append_nil_l, append_cons, !prefix_cons.
      destruct (ascii_dec "/" a); [by rewrite !prefix_nil | reflexivity].
    + rewrite !append_cons, !prefix_cons.
      destruct (ascii_dec "/" x); [by rewrite !prefix_nil | reflexivity].
Qed.

Lemma rstrip_sep_id (d : string) :
  endswith d "/" = false → PosixPath.rstrip_sep d = d.
Proof.
  induction d as [|c d IH]; [reflexivity |].
  rewrite endswith_sep_cons. cbn [PosixPath.rstrip_sep]. destruct d as [|a d].
  - intros Hc%bool_decide_eq_false. cbn [PosixPath.rstrip_sep].
    destruct (decide (c = "/"%char)); [contradiction | reflexivity].
  - intros Hd. by rewrite IH.
Qed.

Lemma endswith_sep_app (a d : string) :
  d ≠ EmptyString → endswith (a +:+ d) "/" = endswith d "/".
Proof.
  intros Hd. induction a as [|c a IH]; [reflexivity |].
  rewrite append_cons, endswith_sep_cons, IH.
  destruct (a +:+ d) eqn:E; [| reflexivity].
  destruct a, d; done.
Qed.

Lemma join_relative (a b : string) :
  a ≠ EmptyString → startswith b "/" = false → endswith a "/" = false →
  PosixPath.join a b = a +:+ "/" +:+ b.
Proof.
  intros Ha Hb Hend. unfold PosixPath.join, PosixPath.sep.
  by rewrite Hb, Hend, bool_decide_eq_false_2.
Qed.

(** X7: the target of a solution mirrors its place below [src]: for the
    identifier [d/b], with [b] free of slashes and [d] a relative
    directory path, the test file is [tests/d/test_b.py]; for an
    identifier [b] without directory it is [tests/test_b.py]. *)
Theorem test_filepath_mirrors_the_solution (d b : string) :
  d ≠ EmptyString → startswith d "/" = false → endswith d "/" = false →
  contains_char "/" b = false →
  test_filepath_of (d +:+ "/" +:+ b)
  = "tests/" +:+ d +:+ "/" +:+ "test_" +:+ b +:+ ".py"
  ∧ test_filepath_of b = "tests/" +:+ "test_" +:+ b +:+ ".py".
Proof.
  intros Hne Hstart Hend Hb.
  unfold test_filepath_of, PosixPath.dirname, PosixPath.basename.
  rewrite rsplit_sep_app, rsplit_sep_plain by exact Hb. cbn [fst snd].
  split; [| reflexivity].
  rewrite rstrip_sep_app, rstrip_sep_id by exact Hend.
  destruct d as [|c d]; [done |].
  rewrite (join_relative "tests") by done.
  rewrite join_relative.
  - by rewrite !append_assoc.
  - done.
  - reflexivity.
  - change ("tests" +:+ "/" +:+ String c d) with ("tests/" +:+ String c d).
    by rewrite endswith_sep_app.
Qed.

(** [test_filepath_mirrors_the_solution] at [arrays/has_duplicate]. *)
Lemma test_filepath_mirrors_the_solution_witness :
  test_filepath_of ("arrays" +:+ "/" +:+ "has_duplicate")
  = "tests/" +:+ "arrays" +:+ "/" +:+ "test_" +:+ "has_duplicate" +:+ ".py"
  ∧ test_filepath_of "has_duplicate" = "tests/" +:+ "test_" +:+ "has_duplicate" +:+ ".py".
Proof.
  apply (test_filepath_mirrors_the_solution "arrays" "has_duplicate");
    [discriminate | reflexivity | reflexivity | reflexivity].
Defined.

End PathFacts.

Module ValidationFacts.
Import PyStr Os OsFacts GenerateTests GenerateTestsFacts.

Section WithInterpreter.
Variable test_specifications : gmap string spec.
Variable py_exec : string → string → string → load_outcome.

(** What validation comes to when the source is a regular file that loads. *)
Lemma validate_function_loaded (src_path function_name : string) (verbose : bool)
    (w : world) (text : string) (attrs : list string) :
  let full_src_path := PosixPath.join "src" (src_path +:+ ".py") in
  let name := replace src_path "/" "." in
  files w !! PosixPath.normpath full_src_path = Some text →
  py_exec name full_src_path text = Loaded attrs →
  validate_function py_exec src_path function_name verbose w
  = (Ret (hasattr attrs function_name),
     World (files w)
       (trace w ++ EvExec name full_src_path
          :: if verbose && negb (hasattr attrs function_name)
             then [EvPrint ("Warning: " +:+ function_name +:+ " not found in "
                              +:+ full_src_path)]
             else [])).
Proof.
  intros full_src_path name Hfile Hexec. unfold validate_function.
  fold full_src_path name. rewrite bind_os_path_exists.
  assert (is_file (files w) full_src_path = true) as ->.
  { unfold is_file. rewrite Hfile. by apply bool_decide_eq_true. }
  cbn [orb negb]. unfold try_except_Exception. rewrite bind_run.
  unfold exec_module at 1. rewrite Hfile, Hexec. rewrite bind_run.
  destruct (verbose && negb (hasattr attrs function_name)); cbn.
  - by rewrite <- app_assoc.
  - reflexivity.
Qed.

(** X8: [validate_function] returns [True] exactly when the source of
    the identifier is a regular file below [src] that loads without
    raising and defines the entry-point name. *)
Theorem validate_function_true_iff (src_path function_name : string)
    (verbose : bool) (w : world) :
  let full_src_path := PosixPath.join "src" (src_path +:+ ".py") in
  let name := replace src_path "/" "." in
  fst (validate_function py_exec src_path function_name verbose w) = Ret true
  ↔ ∃ text attrs,
      files w !! PosixPath.normpath full_src_path = Some text
      ∧ py_exec name full_src_path text = Loaded attrs
      ∧ function_name ∈ attrs.
Proof.
  intros full_src_path name. split.
  - unfold validate_function. fold full_src_path name.
    rewrite bind_os_path_exists.
    destruct (is_file (files w) full_src_path || is_dir (files w) full_src_path);
      cbn [negb]; [| discriminate].
    unfold try_except_Exception. rewrite bind_run. unfold exec_module at 1.
    destruct (files w !! PosixPath.normpath full_src_path) as [text |] eqn:Hfile.
    + destruct (py_exec name full_src_path text) as [attrs | e] eqn:Hexec.
      * rewrite bind_run.
        destruct (hasattr attrs function_name) eqn:Hattr.
        -- intros _. exists text, attrs. repeat split; [exact Hexec |].
           by apply bool_decide_eq_true in Hattr.
        -- by destruct verbose.
      * destruct (is_Exception e); [| discriminate].
        destruct verbose; [| discriminate].
        unfold when, mbind, M_bind, str_of_exn. by destruct (exn_str e).
    + cbn. by destruct verbose.
  - intros (text & attrs & Hfile & Hexec & Hattr).
    rewrite (validate_function_loaded _ _ _ _ text attrs) by done.
    cbn [fst]. f_equal. by apply bool_decide_eq_true.
Qed.


End WithInterpreter.

End ValidationFacts.

Module RenderingFacts.
Import PyStr Os GenerateTests GenerateTestsFacts.

Lemma concat_app (l1 l2 : list string) :
  String.concat EmptyString (l1 ++ l2)
  = String.concat EmptyString l1 +:+ String.concat EmptyString l2.
Proof.
  induction l1 as [|x l1 IH]; [reflexivity |].
  change ((x :: l1) ++ l2) with (x :: (l1 ++ l2)).
  by rewrite !concat_cons, IH, append_assoc.
Qed.

(** X11: cases added at the end of a specification only add text at the
    end: the content for [cases ++ more] is the content for [cases]
    followed by one test function per added case, numbered on from
    [len(cases)]. *)
Theorem more_cases_append_tests (src_path function_name : string)
    (cases more : list test_case) :
  test_content src_path function_name (cases ++ more)
  = test_content src_path function_name cases
    +:+ String.concat EmptyString
          (imap (λ i, test_function function_name (length cases + i)) more).
Proof.
  unfold test_content, enumerate.
  rewrite !content_loop, imap_app, concat_app. cbn [Nat.add].
  by rewrite !append_assoc.
Qed.

Lemma to_uint_nonnil (n : nat) : Nat.to_uint n ≠ Decimal.Nil.
Proof.
  rewrite <- (Unsigned.of_to n), Unsigned.to_of. unfold Decimal.unorm.
  by destruct (Decimal.nzhead _).
Qed.

Lemma str_nat_inj (i j : nat) : str_nat i = str_nat j → i = j.
Proof.
  unfold str_nat. intros Heq.
  apply (f_equal NilZero.uint_of_string) in Heq.
  rewrite !NilZero.usu in Heq by apply to_uint_nonnil.
  injection Heq as Heq. apply (f_equal Nat.of_uint) in Heq.
  by rewrite !Unsigned.of_to in Heq.
Qed.

(** X12: the names [test_case_<i>] of two cases are the same only for
    the same position. *)
Theorem test_case_names_are_distinct (i j : nat) :
  "test_case_" +:+ str_nat i = "test_case_" +:+ str_nat j → i = j.
Proof. intros Heq. by apply str_nat_inj, (String.app_inj "test_case_"). Qed.

(** [test_case_names_are_distinct] at position 12. *)
Lemma test_case_names_are_distinct_witness : 12 = 12.
Proof. apply (test_case_names_are_distinct 12 12). reflexivity. Defined.

End RenderingFacts.

Module SweepFacts.
Import PyStr Os OsFacts GenerateTests GenerateTestsFacts.

Lemma for_each_idle {A} (xs : list A) (body : A → M unit) (w : world) :
  (∀ x, x ∈ xs → body x w = (Ret tt, w)) → for_each xs body w = (Ret tt, w).
Proof.
  induction xs as [|x xs IH]; intros Hb; [reflexivity |].
  cbn [for_each]. rewrite bind_run, Hb by left.
  apply IH. intros y Hy. apply Hb. by right.
Qed.

Lemma omap_none {A B} (f : A → option B) (l : list A) :
  (∀ x, x ∈ l → f x = None) → omap f l = [].
Proof.
  induction l as [|x l IH]; intros Hf; [reflexivity |].
  cbn. rewrite Hf by left. apply IH. intros y Hy. apply Hf. by right.
Qed.

Lemma os_walk_nothing (root : string) (w : world) :
  (∀ path, is_Some (files w !! path) → below (PosixPath.normpath root) path = false) →
  os_walk root w = (Ret [], w).
Proof.
  intros Hnone. unfold os_walk. do 2 f_equal.
  destruct (bool_decide (root = EmptyString)); [reflexivity |].
  apply omap_none. intros [path text] Hin%elem_of_map_to_list.
  cbn. by rewrite Hnone.
Qed.

Section WithInterpreter.
Variable test_specifications : gmap string spec.
Variable py_exec : string → string → string → load_outcome.

(** X14: when every test identifier found below [tests] is a solution
    identifier, [clean_orphaned_tests] removes nothing and prints
    nothing. *)
Theorem sweep_without_orphans (src_files test_files : list string)
    (verbose : bool) (w : world) :
  get_test_files "tests" w = (Ret test_files, w) →
  (∀ test_path, test_path ∈ test_files → test_path ∈ src_files) →
  clean_orphaned_tests src_files verbose w = (Ret tt, w).
Proof.
  intros Hfound Hknown. unfold clean_orphaned_tests.
  rewrite bind_run, Hfound. apply for_each_idle.
  intros test_path Hin. by rewrite bool_decide_eq_true_2 by auto.
Qed.

(** X15: missing or empty roots are no error: when no file lies below
    [src] or [tests], a run returns normally and changes no file; under
    [verbose] it prints the empty list of sources, and nothing else. *)
Theorem empty_roots_are_no_error (force verbose : bool) (w : world) :
  (∀ path, is_Some (files w !! path) →
     below "src" path = false ∧ below "tests" path = false) →
  main test_specifications py_exec force verbose w
  = (Ret tt,
     World (files w)
       (trace w ++ if verbose then [EvPrint "Found source files: []"] else [])).
Proof.
  intros Hnone. unfold main, clean_orphaned_tests, get_src_files, get_test_files.
  rewrite bind_run, bind_run, os_walk_nothing by (intros; by apply Hnone).
  cbn [mret M_ret foldl map].
  destruct verbose; cbn [when].
  - rewrite bind_run. cbn [print emit]. rewrite !bind_run.
    rewrite os_walk_nothing by (intros; by apply Hnone). reflexivity.
  - rewrite bind_run. cbn [mret M_ret]. rewrite !bind_run.
    rewrite os_walk_nothing by (intros; by apply Hnone).
    cbn. by rewrite app_nil_r; destruct w.
Qed.


End WithInterpreter.
End SweepFacts.

(** ** Instances of the facts above on the scenario *)

Module Instances.
Import PyStr Os GenerateTests Enumerations Scenario.


(** [sweep_without_orphans] for the solution and its generated test. *)
Lemma sweep_without_orphans_witness :
  let w := start {[ "src/arrays/has_duplicate.py" := has_duplicate_py;
                    "tests/arrays/test_has_duplicate.py" := has_duplicate_test ]} in
  clean_orphaned_tests ["arrays/has_duplicate"] true w = (Ret tt, w).
Proof.
  apply (SweepFacts.sweep_without_orphans ["arrays/has_duplicate"]
           ["arrays/has_duplicate"]); [reflexivity | by intros].
Defined.

(** [empty_roots_are_no_error] for a directory with a read-me only. *)
Lemma empty_roots_are_no_error_witness :
  let w := start {[ "README.md" := "nc150" ]} in
  main table interp false true w
  = (Ret tt, World (files w) (trace w ++ [EvPrint "Found source files: []"])).
Proof.
  apply (SweepFacts.empty_roots_are_no_error table interp false true
           (start {[ "README.md" := "nc150" ]})).
  intros path [text Hpath]. cbn in Hpath.
  apply lookup_singleton_Some in Hpath as [<- _]. by split.
Defined.

End Instances.
